(** * RetailIQ: the preprocessing (ETL) script, embedded and verified

    The development follows [src/preprocessing.py] section by section:
    cleaning helpers, core cleaning, category normalisation, feature
    engineering, removal of bad data, projection and the write to the
    [sales] table.  pandas columns are [Series] (lists), the frame is an
    ordered collection of records carrying their index label, prices are
    IEEE-754 binary64 numbers (Rocq's primitive floats), and Python
    exceptions are the [Raise] outcome of a small error monad. *)

From Stdlib Require Import ZArith NArith Floats Ascii String.
From stdpp Require Import base option list gmap strings.

Set Warnings "-inexact-float".
Open Scope string_scope.
Open Scope list_scope.

(** ** Python exceptions *)

Inductive exn : Set :=
  | ValueError
  | FileNotFoundError
  | IntCastingNaNError.

Inductive result (A : Type) : Type :=
  | Ok (a : A)
  | Raise (e : exn).
Arguments Ok {A} a.
Arguments Raise {A} e.

Definition rbind {A B : Type} (m : result A) (k : A → result B) : result B :=
  match m with
  | Ok a => k a
  | Raise e => Raise e
  end.

#[global] Instance result_ret : MRet result := @Ok.
#[global] Instance result_bind : MBind result := fun A B k m => rbind m k.

(** [Series.apply f] with a raising [f]: the first failing element aborts. *)
Fixpoint series_apply {A B : Type} (f : A → result B) (xs : list A) : result (list B) :=
  match xs with
  | [] => Ok []
  | x :: xs' => y ← f x; ys ← series_apply f xs'; Ok (y :: ys)
  end.

(** ** binary64 helpers (numpy float64 semantics) *)

Module F64.

(** The binary64 number nearest to the integer [z] (int -> float). *)
Definition of_Z (z : Z) : float :=
  SF2Prim (binary_normalize prec emax z 0 false).

(** The binary64 number nearest (ties to even) to [(-1)^neg * n / 10^k]:
    what CPython's [float()] and pandas' parser return for a decimal
    numeral with digits [n] and [k] digits after the point. *)
Definition of_decimal (neg : bool) (n : N) (k : nat) : float :=
  match n with
  | N0 => SF2Prim (S754_zero neg)
  | Npos m =>
      SF2Prim (SFdiv prec emax (S754_finite neg m 0)
                               (S754_finite false (Z.to_pos (10 ^ Z.of_nat k)) 0))
  end.

Definition two52 : float := 4503599627370496%float.

(** [numpy.rint]: the nearest integral value, ties to even. *)
Definition rint (x : float) : float :=
  if is_nan x then x
  else if (two52 <=? abs x)%float then x
  else if get_sign x then (- ((abs x + two52) - two52))%float
  else ((x + two52) - two52)%float.

(** [numpy.round(x, 2)]: scale, [rint], scale back. *)
Definition round2 (x : float) : float := (rint (x * 100) / 100)%float.

(** Truncation toward zero of a finite value, as an exact integer. *)
Definition trunc (x : float) : Z :=
  match Prim2SF x with
  | S754_finite s m e =>
      let a := match e with
               | Z0 => Zpos m
               | Zpos p => Z.shiftl (Zpos m) (Zpos p)
               | Zneg p => Z.shiftr (Zpos m) (Zpos p)
               end in
      if s then Z.opp a else a
  | _ => 0%Z
  end.

Definition int64_min : Z := (- 2 ^ 63)%Z.
Definition int64_max : Z := (2 ^ 63 - 1)%Z.

(** [Series.astype(int)] on a float64 value: pandas refuses NaN and the
    infinities; a finite value is cast as C does, truncating toward zero,
    and a value outside the int64 range comes out as [int64_min] (the
    x86-64 conversion result numpy inherits). *)
Definition astype_int (x : float) : result Z :=
  if is_nan x || is_infinity x then Raise IntCastingNaNError
  else
    let z := trunc x in
    if ((int64_min <=? z) && (z <=? int64_max))%Z then Ok z else Ok int64_min.

(** Equality of two cells as pandas' hash tables see it when they look
    for duplicates: IEEE equality, and NaN equal to NaN. *)
Definition same (x y : float) : bool :=
  (x =? y)%float || (is_nan x && is_nan y).

End F64.


(** ** Text helpers (Python [str] methods and the [re] call of the script) *)

Definition is_digit (c : ascii) : bool :=
  let n := nat_of_ascii c in (48 <=? n)%nat && (n <=? 57)%nat.

Definition digit_value (c : ascii) : N := N.of_nat (nat_of_ascii c - 48).

(** [str.isspace] on the ASCII range. *)
Definition is_space (c : ascii) : bool :=
  let n := nat_of_ascii c in
  ((9 <=? n)%nat && (n <=? 13)%nat) || ((28 <=? n)%nat && (n <=? 32)%nat).

Definition lower_char (c : ascii) : ascii :=
  let n := nat_of_ascii c in
  if (65 <=? n)%nat && (n <=? 90)%nat then ascii_of_nat (n + 32) else c.

Fixpoint str_filter (keep : ascii → bool) (s : string) : string :=
  match s with
  | EmptyString => EmptyString
  | String c s' => if keep c then String c (str_filter keep s') else str_filter keep s'
  end.

Fixpoint str_map (f : ascii → ascii) (s : string) : string :=
  match s with
  | EmptyString => EmptyString
  | String c s' => String (f c) (str_map f s')
  end.

Fixpoint lstrip (s : string) : string :=
  match s with
  | String c s' => if is_space c then lstrip s' else s
  | EmptyString => EmptyString
  end.

Fixpoint rstrip (s : string) : string :=
  match s with
  | EmptyString => EmptyString
  | String c s' =>
      match rstrip s' with
      | EmptyString => if is_space c then EmptyString else String c EmptyString
      | t => String c t
      end
  end.

Definition strip (s : string) : string := rstrip (lstrip s).
Definition lower (s : string) : string := str_map lower_char s.

(** [s.split(sep)] for a one-character separator: never the empty list. *)
Fixpoint split (sep : ascii) (s : string) : list string :=
  match s with
  | EmptyString => [EmptyString]
  | String c s' =>
      if Ascii.eqb c sep then EmptyString :: split sep s'
      else match split sep s' with
           | [] => [String c EmptyString]
           | w :: ws => String c w :: ws
           end
  end.

(** Value of a run of decimal digits; [None] when another character occurs. *)
Fixpoint digits_value (acc : N) (s : string) : option N :=
  match s with
  | EmptyString => Some acc
  | String c s' => if is_digit c then digits_value (10 * acc + digit_value c) s' else None
  end.

(** An unsigned decimal numeral: digits with at most one point and at
    least one digit.  The result is the digit string read as an integer and
    the number of digits after the point. *)
Definition parse_decimal (s : string) : option (N * nat) :=
  match split "." s with
  | [i] =>
      if String.eqb i "" then None
      else n ← digits_value 0 i; Some (n, 0%nat)
  | [i; f] =>
      if String.eqb i "" && String.eqb f "" then None
      else n ← digits_value 0 (i ++ f)%string; Some (n, String.length f)
  | _ => None
  end.

(** Python's [float(s)] on text: a decimal numeral with an optional sign.
    Exponents, underscores, surrounding blanks and the spellings of
    infinity and NaN are not part of the model: the script only calls
    [float] on text made of digits and points. *)
Definition float_of_str (s : string) : result float :=
  let '(neg, body) :=
    match s with
    | String "-" t => (true, t)
    | String "+" t => (false, t)
    | _ => (false, s)
    end in
  match parse_decimal body with
  | Some (n, k) => Ok (F64.of_decimal neg n k)
  | None => Raise ValueError
  end.

(** ** Cells of the frame as [pd.read_csv] delivers them

    A cell of a text column is a [str], or NaN when the field is empty. *)

Inductive cell : Set :=
  | NaN
  | Str (s : string).

Definition isna (x : cell) : bool :=
  match x with NaN => true | Str _ => false end.

(** [str(x)]. *)
Definition str (x : cell) : string :=
  match x with NaN => "nan" | Str s => s end.

(** ** pandas Series operations used by the script *)

Abbreviation Series := list (only parsing).

Module Series.

Definition sub (a b : Series float) : Series float := zip_with PrimFloat.sub a b.
Definition div (a b : Series float) : Series float := zip_with PrimFloat.div a b.
Definition mul_scalar (a : Series float) (k : float) : Series float :=
  (λ x, x * k)%float <$> a.

(** float64 column times int64 column: the integer is converted first. *)
Definition mul_int (a : Series float) (b : Series Z) : Series float :=
  zip_with (λ x n, x * F64.of_Z n)%float a b.

(** [s.replace(old, new)]: cells equal to [old] (as numbers) become [new]. *)
Definition replace (old new : float) (a : Series float) : Series float :=
  (λ x, if (x =? old)%float then new else x) <$> a.

Definition round2 (a : Series float) : Series float := F64.round2 <$> a.

Definition fillna (v : float) (a : Series float) : Series float :=
  (λ x, if is_nan x then v else x) <$> a.

Definition fillna_str (v : string) (a : Series (option string)) : Series string :=
  default v <$> a.

Definition astype_str (a : Series cell) : Series string := str <$> a.

Definition astype_int (a : Series float) : result (Series Z) :=
  series_apply F64.astype_int a.

(** [s.str.replace(",", "", regex=True)]: every comma is removed. *)
Definition str_remove (c : ascii) (a : Series string) : Series string :=
  str_filter (λ d, negb (Ascii.eqb d c)) <$> a.

(** [s.str.split(sep)] and [.str[0]] (NaN when the list is empty). *)
Definition str_split (sep : ascii) (a : Series string) : Series (list string) :=
  split sep <$> a.
Definition str_get0 (a : Series (list string)) : Series (option string) :=
  (λ l, l !! 0%nat) <$> a.

(** [s.map(d)] with a dict: a missing key, or a NaN cell, gives NaN. *)
Definition map_dict (d : gmap string string) (a : Series (option string))
  : Series (option string) :=
  (λ k, k ≫= (d !!.)) <$> a.

(** [pd.to_numeric(s, errors="coerce")]: text that is not a numeral, and
    NaN, become NaN.  Numerals are the signed decimals of [float_of_str];
    the other spellings pandas reads (exponents, blanks around the
    numeral, infinities) are not modelled. *)
Definition to_numeric_cell (x : cell) : float :=
  match x with
  | NaN => nan
  | Str s => match float_of_str s with Ok v => v | Raise _ => nan end
  end.
Definition to_numeric (a : Series cell) : Series float := to_numeric_cell <$> a.

Definition gt (a : Series float) (k : float) : Series bool := (λ x, k <? x)%float <$> a.
Definition ge (a : Series float) (k : float) : Series bool := (λ x, k <=? x)%float <$> a.

End Series.

(** ** [pd.cut] with explicit labels (right-closed bins, [include_lowest=False]) *)

(** [bins.searchsorted(x, side="left")] on ascending [bins]: the number of
    leading bins strictly below [x]. *)
Fixpoint searchsorted_left (bins : list float) (x : float) : nat :=
  match bins with
  | [] => 0
  | b :: bs => if (b <? x)%float then S (searchsorted_left bs x) else 0
  end.

(** The category code of [x]: no code (NaN) for a NaN, for a value at or
    below the first edge and for a value above the last edge. *)
Definition cut_code (x : float) (bins : list float) : option nat :=
  let ids := searchsorted_left bins x in
  if is_nan x || (ids =? length bins)%nat || (ids =? 0)%nat then None
  else Some (ids - 1)%nat.

Definition cut (a : Series float) (bins : list float) (labels : list string)
  : Series (option string) :=
  (λ x, c ← cut_code x bins; labels !! c) <$> a.

(** ** 3. Cleaning helpers *)

(** [re.sub(r"[^\d.]", "", s)]: only digits and points are kept ([\d] on
    the ASCII range). *)
Definition re_sub_not_digit_or_point (s : string) : string :=
  str_filter (λ c, is_digit c || Ascii.eqb c ".") s.

Definition clean_price (x : cell) : result float :=
  if isna x then Ok 0%float
  else
    match re_sub_not_digit_or_point (str x) with
    | EmptyString => Ok (F64.of_Z 0)
    | s => float_of_str s
    end.

Definition clean_text (x : cell) : string :=
  if isna x then "" else lower (strip (str x)).

(** ** 4. Core cleaning *)

Record RawRow : Set := {
  raw_product_name : cell;
  raw_category : cell;
  raw_discounted_price : cell;
  raw_actual_price : cell;
  raw_rating : cell;
  raw_rating_count : cell
}.

Definition clean_prices (a : Series cell) : result (Series float) :=
  series_apply clean_price a.

Definition clean_rating (a : Series cell) : Series float :=
  Series.fillna 0 (Series.to_numeric a).

Definition clean_rating_count (a : Series cell) : result (Series Z) :=
  let s := Series.str_remove "," (Series.astype_str a) in
  Series.astype_int (Series.fillna 0 (Series.to_numeric (Str <$> s))).

(** ** 5. Category normalisation *)

Definition category_map : gmap string string :=
  list_to_map [
    ("electronics", "Electronics");
    ("computers&accessories", "Computers");
    ("home&kitchen", "Home & Kitchen");
    ("health&personalcare", "Personal Care");
    ("officeproducts", "Stationery");
    ("homeimprovement", "Home Improvement");
    ("toys&games", "Toys & Games");
    ("musicalinstruments", "Musical Instruments");
    ("car&motorbike", "Automotive")
  ].

Definition main_category_raw_of (category : Series string) : Series (option string) :=
  Series.str_get0 (Series.str_split "|" category).

Definition main_category_of (main_category_raw : Series (option string)) : Series string :=
  Series.fillna_str "Other" (Series.map_dict category_map main_category_raw).

(** ** 6. Feature engineering *)

Definition discount_percent_of (actual_price discounted_price : Series float) : Series float :=
  Series.round2
    (Series.mul_scalar
       (Series.div (Series.sub actual_price discounted_price)
                   (Series.replace 0 1 actual_price))
       100).

Definition price_savings_of (actual_price discounted_price : Series float) : Series float :=
  Series.sub actual_price discounted_price.

Definition popularity_score_of (rating : Series float) (rating_count : Series Z) : Series float :=
  Series.mul_int rating rating_count.

Definition bins : list float := [0; 500; 1000; 2000; 5000; 10000; 999999]%float.
Definition labels : list string := ["budget"; "low"; "mid"; "upper-mid"; "premium"; "luxury"].

Definition price_bucket_of (discounted_price : Series float) : Series (option string) :=
  cut discounted_price bins labels.

(** ** The frame [df] once its columns are computed

    One record per line of the input file, in file order, with the index
    label pandas gave the line. *)

Record Row : Type := {
  row_index : nat;
  product_name : string;
  category : string;
  main_category_raw : option string;
  main_category : string;
  discounted_price : float;
  actual_price : float;
  rating : float;
  rating_count : Z;
  discount_percent : float;
  price_savings : float;
  popularity_score : float;
  price_bucket : option string
}.

Abbreviation DataFrame := (list Row) (only parsing).

(** Columns are aligned position by position. *)
Definition ap {A B : Type} (fs : list (A → B)) (xs : list A) : list B :=
  zip_with (λ f x, f x) fs xs.
Infix "<*>" := ap (at level 61, left associativity).

(** Sections 4 to 6 of the script: every column of [df], from the raw frame. *)
Definition features (raw : list RawRow) : result DataFrame :=
  discounted_price ← clean_prices (raw_discounted_price <$> raw);
  actual_price ← clean_prices (raw_actual_price <$> raw);
  let rating := clean_rating (raw_rating <$> raw) in
  rating_count ← clean_rating_count (raw_rating_count <$> raw);
  let product_name := clean_text <$> (raw_product_name <$> raw) in
  let category := clean_text <$> (raw_category <$> raw) in
  let main_category_raw := main_category_raw_of category in
  let main_category := main_category_of main_category_raw in
  let discount_percent := discount_percent_of actual_price discounted_price in
  let price_savings := price_savings_of actual_price discounted_price in
  let popularity_score := popularity_score_of rating rating_count in
  let price_bucket := price_bucket_of discounted_price in
  Ok (Build_Row <$> seq 0 (length raw)
        <*> product_name <*> category <*> main_category_raw <*> main_category
        <*> discounted_price <*> actual_price <*> rating <*> rating_count
        <*> discount_percent <*> price_savings <*> popularity_score
        <*> price_bucket).

(** ** 7. Remove bad data *)

(** [df[mask]]: the rows whose mask cell is [True], in order. *)
Fixpoint select {A : Type} (df : list A) (mask : Series bool) : list A :=
  match df, mask with
  | r :: df', b :: mask' => if b then r :: select df' mask' else select df' mask'
  | _, _ => []
  end.

(** The [subset] of [drop_duplicates]: product name and discounted price. *)
Definition subset_key (r : Row) : string * float := (product_name r, discounted_price r).

Definition key_same (k1 k2 : string * float) : bool :=
  String.eqb k1.1 k2.1 && F64.same k1.2 k2.2.

(** [duplicated(keep="first")]: a row is marked when an earlier row has
    the same key. *)
Fixpoint duplicated_from (seen ks : list (string * float)) : Series bool :=
  match ks with
  | [] => []
  | k :: ks' => existsb (key_same k) seen :: duplicated_from (k :: seen) ks'
  end.

Definition duplicated (ks : list (string * float)) : Series bool := duplicated_from [] ks.

Definition drop_duplicates (df : DataFrame) : DataFrame :=
  select df (negb <$> duplicated (subset_key <$> df)).

Definition remove_bad_data (df : DataFrame) : DataFrame :=
  let df := select df (Series.gt (actual_price <$> df) 0) in
  let df := select df (Series.ge (discounted_price <$> df) 0) in
  drop_duplicates df.

(** ** 8. Final structured dataset *)

Module Sales.
(** A row of the [sales] table: the eleven projected columns, no index. *)
Record row : Type := {
  product_name : string;
  category : string;
  main_category : string;
  discounted_price : float;
  actual_price : float;
  price_savings : float;
  discount_percent : float;
  rating : float;
  rating_count : Z;
  popularity_score : float;
  price_bucket : option string
}.
End Sales.

Definition project (r : Row) : Sales.row :=
  {| Sales.product_name := product_name r;
     Sales.category := category r;
     Sales.main_category := main_category r;
     Sales.discounted_price := discounted_price r;
     Sales.actual_price := actual_price r;
     Sales.price_savings := price_savings r;
     Sales.discount_percent := discount_percent r;
     Sales.rating := rating r;
     Sales.rating_count := rating_count r;
     Sales.popularity_score := popularity_score r;
     Sales.price_bucket := price_bucket r |}.

Definition final_df (df : DataFrame) : list Sales.row := project <$> df.

(** ** 9. Save to the SQLite database *)

(** The store: tables by name, and indexes by name with the table and the
    column they are on. *)
Record Database : Type := {
  tables : gmap string (list Sales.row);
  indexes : gmap string (string * string)
}.

(** [DROP TABLE]: the table goes, and so do the indexes on it. *)
Definition drop_table (name : string) (db : Database) : Database :=
  {| tables := delete name (tables db);
     indexes := filter (λ kv, kv.2.1 ≠ name) (indexes db) |}.

(** [to_sql(name, conn, if_exists="replace", index=False)]. *)
Definition to_sql (name : string) (rows : list Sales.row) (db : Database) : Database :=
  let db := drop_table name db in
  {| tables := <[name := rows]> (tables db); indexes := indexes db |}.

(** [CREATE INDEX IF NOT EXISTS iname ON tname(col)]. *)
Definition create_index (iname tname col : string) (db : Database) : Database :=
  match indexes db !! iname with
  | Some _ => db
  | None => {| tables := tables db; indexes := <[iname := (tname, col)]> (indexes db) |}
  end.

Definition save (rows : list Sales.row) (db : Database) : Database :=
  let db := to_sql "sales" rows db in
  let db := create_index "idx_main_category" "sales" "main_category" db in
  let db := create_index "idx_rating" "sales" "rating" db in
  create_index "idx_price" "sales" "discounted_price" db.

(** ** The whole script

    [csv] is the content of the input file, [None] when the file does not
    exist; [db] is the store before the run. *)
Definition etl (raw : list RawRow) : result (list Sales.row) :=
  df ← features raw;
  Ok (final_df (remove_bad_data df)).

Definition preprocessing (csv : option (list RawRow)) (db : Database) : result Database :=
  match csv with
  | None => Raise FileNotFoundError
  | Some raw =>
      rows ← etl raw;
      Ok (save rows db)
  end.

(** ** Vocabulary of the specification *)

(** The business categories of the mapping table, in table order. *)
Definition business_categories : list string :=
  ["Electronics"; "Computers"; "Home & Kitchen"; "Personal Care"; "Stationery";
   "Home Improvement"; "Toys & Games"; "Musical Instruments"; "Automotive"].

(** The values a main category may take: the fixed set and the fallback. *)
Definition main_categories : list string := business_categories ++ ["Other"].

(** The bucket of a price under right-closed bins
    (0,500], (500,1000], (1000,2000], (2000,5000], (5000,10000], (10000,999999]. *)
Definition right_closed_label (p : float) : string :=
  if (p <=? 500)%float then "budget"
  else if (p <=? 1000)%float then "low"
  else if (p <=? 2000)%float then "mid"
  else if (p <=? 5000)%float then "upper-mid"
  else if (p <=? 10000)%float then "premium"
  else "luxury".

(** The bucket of a price as the specification words it: half-open bins
    [0,500), [500,1000), [1000,2000), [2000,5000), [5000,10000), [10000,inf). *)
Definition half_open_label (p : float) : string :=
  if (p <? 500)%float then "budget"
  else if (p <? 1000)%float then "low"
  else if (p <? 2000)%float then "mid"
  else if (p <? 5000)%float then "upper-mid"
  else if (p <? 10000)%float then "premium"
  else "luxury".

(** Position of a label in the bucket order
    budget < low < mid < upper-mid < premium < luxury. *)
Fixpoint index_of (l : string) (ls : list string) : nat :=
  match ls with
  | [] => 0
  | x :: ls' => if String.eqb x l then 0 else S (index_of l ls')
  end.

Definition label_rank (l : string) : nat := index_of l labels.

(** The discount of one record as the specification words it: the
    denominator is the actual price, or 1 when the actual price is 0. *)
Definition spec_discount_percent (actual discounted : float) : float :=
  let d := if (actual =? 0)%float then 1%float else actual in
  F64.round2 ((actual - discounted) / d * 100)%float.

(** The two price conditions of the quality filter. *)
Definition valid_prices (r : Row) : bool :=
  (0 <? actual_price r)%float && (0 <=? discounted_price r)%float.

(** The text the count of ratings is parsed from: [str], commas removed. *)
Definition rating_count_text (x : cell) : string :=
  str_filter (λ d, negb (Ascii.eqb d ",")) (str x).

(** The input row of the end-to-end scenario. *)
Definition wireless_mouse : RawRow :=
  {| raw_product_name := Str "Wireless Mouse";
     raw_category := Str "electronics|accessories|mice";
     raw_discounted_price := Str "₹499";
     raw_actual_price := Str "₹999";
     raw_rating := Str "4.3";
     raw_rating_count := Str "1,234" |}.

(** A small input: the scenario row, a second offer of the same product at
    the same discounted price, and a line whose prices are both 0. *)
Definition sample_input : list RawRow :=
  [ wireless_mouse;
    {| raw_product_name := Str " WIRELESS MOUSE";
       raw_category := Str "unknowntype|foo";
       raw_discounted_price := Str "499.00";
       raw_actual_price := Str "1,299";
       raw_rating := Str "|";
       raw_rating_count := NaN |};
    {| raw_product_name := Str "Mouse Pad";
       raw_category := Str "home&kitchen|desk";
       raw_discounted_price := Str "0";
       raw_actual_price := Str "0";
       raw_rating := Str "3.9";
       raw_rating_count := Str "12" |} ].

Definition sample_frame : list Row :=
  match features sample_input with Ok df => df | Raise _ => [] end.

(** A store with no table and no index. *)
Definition empty_db : Database := {| tables := ∅; indexes := ∅ |}.

(** The record derived from line [i] of the input, read row by row: what
    sections 4 to 6 compute for that line alone. *)
Definition record_of (i : nat) (x : RawRow) : result Row :=
  discounted ← clean_price (raw_discounted_price x);
  actual ← clean_price (raw_actual_price x);
  let rating :=
    let v := Series.to_numeric_cell (raw_rating x) in
    if is_nan v then 0%float else v in
  count ←
    (let v := Series.to_numeric_cell (Str (rating_count_text (raw_rating_count x))) in
     F64.astype_int (if is_nan v then 0%float else v));
  let category := clean_text (raw_category x) in
  let segment := split "|" category !! 0%nat in
  Ok {| row_index := i;
        product_name := clean_text (raw_product_name x);
        category := category;
        main_category_raw := segment;
        main_category := default "Other" (segment ≫= (category_map !!.));
        discounted_price := discounted;
        actual_price := actual;
        rating := rating;
        rating_count := count;
        discount_percent := spec_discount_percent actual discounted;
        price_savings := (actual - discounted)%float;
        popularity_score := (rating * F64.of_Z count)%float;
        price_bucket := c ← cut_code discounted bins; labels !! c |}.

Definition result_to_option {A : Type} (m : result A) : option A :=
  match m with Ok a => Some a | Raise _ => None end.

(** ** Vocabulary for the properties of the helpers *)

Fixpoint count_char (c : ascii) (s : string) : nat :=
  match s with
  | EmptyString => 0
  | String d s' => if Ascii.eqb d c then S (count_char c s') else count_char c s'
  end.

Fixpoint str_all (P : ascii → bool) (s : string) : bool :=
  match s with
  | EmptyString => true
  | String c s' => P c && str_all P s'
  end.




(** ** The dashboard ([src/app.py]): filters and the name helper *)

(** A value bound to a named SQL parameter. *)
Inductive param : Type :=
  | PText (s : string)
  | PReal (x : float).

(** [conditions], as the three statements of the script build it. *)
Definition conditions (selected_category selected_bucket : string) : list string :=
  let conditions := ["1=1"] in
  let conditions :=
    if negb (String.eqb selected_category "All")
    then conditions ++ ["main_category = :cat"] else conditions in
  let conditions :=
    if negb (String.eqb selected_bucket "All")
    then conditions ++ ["price_bucket = :bucket"] else conditions in
  conditions ++ ["rating >= :rating"].

Definition params (selected_category selected_bucket : string) (min_rating : float)
  : gmap string param :=
  let params : gmap string param := {["rating" := PReal min_rating]} in
  let params :=
    if negb (String.eqb selected_category "All")
    then <["cat" := PText selected_category]> params else params in
  if negb (String.eqb selected_bucket "All")
  then <["bucket" := PText selected_bucket]> params else params.

(** [" AND ".join(conditions)]. *)
Definition where_clause (selected_category selected_bucket : string) : string :=
  String.concat " AND " (conditions selected_category selected_bucket).

(** The named parameters a statement refers to: each [:name], a colon
    followed by letters, digits and underscores. *)
Definition is_ident_char (c : ascii) : bool :=
  let n := nat_of_ascii c in
  is_digit c || ((65 <=? n)%nat && (n <=? 90)%nat)
  || ((97 <=? n)%nat && (n <=? 122)%nat) || (n =? 95)%nat.

Fixpoint take_ident (s : string) : string :=
  match s with
  | String c s' => if is_ident_char c then String c (take_ident s') else EmptyString
  | EmptyString => EmptyString
  end.

Fixpoint placeholders (s : string) : list string :=
  match s with
  | EmptyString => []
  | String c s' =>
      if Ascii.eqb c ":" then take_ident s' :: placeholders s' else placeholders s'
  end.

(** [shorten(text, n)] on a text given as its sequence of code points
    ([n] is never negative in the script, which only uses the default 45). *)
Definition shorten (text : list N) (n : nat) : list N :=
  if (n <? length text)%nat then take n text ++ [46; 46; 46]%N else text.

(** * Properties *)

(** ** Order of binary64 numbers *)

Section float_order.

Lemma SFcompare_antisym x y :
  SFcompare y x = CompOpp <$> SFcompare x y.
Proof.
  destruct x as [sx|sx| |sx mx ex], y as [sy|sy| |sy my ey]; simpl;
    try reflexivity; try (by destruct sx); try (by destruct sy);
    try (by destruct sx, sy).
  change (Pos.compare_cont Eq my mx) with (Pos.compare my mx).
  change (Pos.compare_cont Eq mx my) with (Pos.compare mx my).
  rewrite (Z.compare_antisym ex ey), (Pos.compare_antisym mx my).
  destruct sx, sy; simpl; try reflexivity;
    destruct (ex ?= ey)%Z; simpl; try reflexivity;
    by destruct (mx ?= my)%positive.
Qed.

Lemma SFcompare_refl x : x ≠ S754_nan → SFcompare x x = Some Eq.
Proof.
  destruct x as [s|s| |s m e]; simpl; intros H; try done; try (by destruct s).
  rewrite Z.compare_refl.
  change (Pos.compare_cont Eq m m) with (Pos.compare m m).
  rewrite Pos.compare_refl. by destruct s.
Qed.

Lemma SFleb_trans x y z : SFleb x y = true → SFleb y z = true → SFleb x z = true.
Proof.
  unfold SFleb.
  destruct x as [sx|sx| |sx mx ex], y as [sy|sy| |sy my ey], z as [sz|sz| |sz mz ez];
    simpl; try done;
    try (by destruct sx); try (by destruct sy); try (by destruct sz);
    try (by destruct sx, sy); try (by destruct sx, sz); try (by destruct sy, sz);
    try (by destruct sx, sy, sz).
  change (Pos.compare_cont Eq mx my) with (Pos.compare mx my).
  change (Pos.compare_cont Eq my mz) with (Pos.compare my mz).
  change (Pos.compare_cont Eq mx mz) with (Pos.compare mx mz).
  destruct sx, sy, sz; simpl; try done;
    destruct (Z.compare_spec ex ey), (Z.compare_spec ey ez), (Z.compare_spec ex ez);
    try done; try lia;
    destruct (Pos.compare_spec mx my), (Pos.compare_spec my mz), (Pos.compare_spec mx mz);
    simpl; try done; try lia.
Qed.

Lemma is_nan_Prim2SF x : is_nan x = true ↔ Prim2SF x = S754_nan.
Proof.
  unfold is_nan. rewrite FloatAxioms.eqb_spec. unfold SFeqb.
  destruct (Prim2SF x) as [s|s| |s m e] eqn:E.
  all: try (rewrite SFcompare_refl by done; simpl; split; done).
  simpl. done.
Qed.

Lemma leb_not_nan x y : (x <=? y)%float = true → is_nan x = false ∧ is_nan y = false.
Proof.
  rewrite FloatAxioms.leb_spec. unfold SFleb. intros H.
  split; apply not_true_is_false; rewrite is_nan_Prim2SF; intros E; rewrite E in H;
    simpl in H; try done.
  by destruct (Prim2SF x).
Qed.

Lemma ltb_not_nan x y : (x <? y)%float = true → is_nan x = false ∧ is_nan y = false.
Proof.
  rewrite FloatAxioms.ltb_spec. unfold SFltb. intros H.
  split; apply not_true_is_false; rewrite is_nan_Prim2SF; intros E; rewrite E in H;
    simpl in H; try done.
  by destruct (Prim2SF x).
Qed.

Lemma ltb_negb_leb x y :
  is_nan x = false → is_nan y = false → (x <? y)%float = negb (y <=? x)%float.
Proof.
  intros Hx Hy. rewrite FloatAxioms.ltb_spec, FloatAxioms.leb_spec. unfold SFltb, SFleb.
  rewrite (SFcompare_antisym (Prim2SF x) (Prim2SF y)).
  apply not_true_iff_false in Hx, Hy. rewrite is_nan_Prim2SF in Hx, Hy.
  destruct (SFcompare (Prim2SF x) (Prim2SF y)) as [[]|] eqn:E; simpl; try done.
  destruct (Prim2SF x), (Prim2SF y); simpl in E; done.
Qed.

Lemma leb_trans x y z :
  (x <=? y)%float = true → (y <=? z)%float = true → (x <=? z)%float = true.
Proof. rewrite !FloatAxioms.leb_spec. apply SFleb_trans. Qed.

Lemma ltb_leb_trans x y z :
  (x <? y)%float = true → (y <=? z)%float = true → (x <? z)%float = true.
Proof.
  intros Hxy Hyz.
  destruct (ltb_not_nan _ _ Hxy) as [Hx Hy], (leb_not_nan _ _ Hyz) as [_ Hz].
  rewrite ltb_negb_leb in Hxy |- * by done.
  apply negb_true_iff in Hxy. apply negb_true_iff.
  destruct (z <=? x)%float eqn:Hzx; [|done].
  by rewrite (leb_trans _ _ _ Hyz Hzx) in Hxy.
Qed.

End float_order.

(** ** Price buckets *)

Lemma searchsorted_left_mono bs p q :
  (p <=? q)%float = true → (searchsorted_left bs p ≤ searchsorted_left bs q)%nat.
Proof.
  intros Hpq. induction bs as [|b bs IH]; simpl; [done|].
  destruct (b <? p)%float eqn:Hb; [|lia].
  rewrite (ltb_leb_trans _ _ _ Hb Hpq). lia.
Qed.

Lemma cut_code_mono bs p q a b :
  (p <=? q)%float = true → cut_code p bs = Some a → cut_code q bs = Some b → (a ≤ b)%nat.
Proof.
  intros Hpq. unfold cut_code.
  pose proof (searchsorted_left_mono bs p q Hpq).
  repeat case_match; try done. intros [= <-] [= <-]. lia.
Qed.

Lemma label_rank_lookup c l : labels !! c = Some l → label_rank l = c.
Proof.
  do 6 (destruct c as [|c]; [by intros [= <-]|]). done.
Qed.

Lemma cut_bins_right_closed p :
  (0 <? p)%float = true → (p <=? 999999)%float = true →
  (c ← cut_code p bins; labels !! c) = Some (right_closed_label p).
Proof.
  intros H0 Hmax.
  destruct (ltb_not_nan _ _ H0) as [_ Hp].
  unfold cut_code, bins, right_closed_label. simpl searchsorted_left.
  rewrite Hp, H0.
  rewrite !(ltb_negb_leb _ p) by done.
  rewrite Hmax.
  repeat (match goal with
          | |- context [(p <=? ?b)%float] => destruct (p <=? b)%float eqn:?
          end; simpl; try done).
Qed.

Lemma right_closed_label_in p : right_closed_label p ∈ labels.
Proof.
  unfold right_closed_label, labels.
  repeat case_match; set_solver.
Qed.

(** C1, as the code has it: for every discounted price [p] of a column
    with [0 < p <= 999999], [pd.cut] assigns exactly one of the six
    labels, the one of the right-closed bin [p] falls in: (0,500] budget,
    (500,1000] low, (1000,2000] mid, (2000,5000] upper-mid, (5000,10000]
    premium, (10000,999999] luxury.  A price exactly at a cut point
    therefore belongs to the lower bucket. *)
Theorem price_bucket_right_closed (discounted_price : list float) (i : nat) (p : float) :
  discounted_price !! i = Some p →
  (0 <? p)%float = true →
  (p <=? 999999)%float = true →
  price_bucket_of discounted_price !! i = Some (Some (right_closed_label p))
  ∧ right_closed_label p ∈ labels.
Proof.
  intros Hi H0 Hmax. split; [|apply right_closed_label_in].
  unfold price_bucket_of, cut. rewrite list_lookup_fmap, Hi. simpl.
  f_equal. by apply cut_bins_right_closed.
Qed.

Lemma price_bucket_right_closed_witness :
  price_bucket_of [499; 500; 1000; 2000; 5000; 10000; 999999]%float !! 1%nat
    = Some (Some "budget")
  ∧ price_bucket_of [499; 500; 1000; 2000; 5000; 10000; 999999]%float !! 6%nat
    = Some (Some "luxury").
Proof.
  split.
  - exact (proj1 (price_bucket_right_closed
                    [499; 500; 1000; 2000; 5000; 10000; 999999]%float 1 500%float
                    eq_refl eq_refl eq_refl)).
  - exact (proj1 (price_bucket_right_closed
                    [499; 500; 1000; 2000; 5000; 10000; 999999]%float 6 999999%float
                    eq_refl eq_refl eq_refl)).
Defined.

(** C1, as the specification states it, fails: with half-open bins that
    include 0 and an open-ended last bin, the prices 500, 0 and 1000000
    would be "low", "budget" and "luxury"; the code puts 500 in "budget"
    and gives 0 and 1000000 no label at all. *)
Lemma price_bucket_half_open_fails :
  ¬ (∀ p : float, (0 <=? p)%float = true →
       price_bucket_of [p] = [Some (half_open_label p)])
  ∧ price_bucket_of [500; 0; 1000000]%float = [Some "budget"; None; None]
  ∧ half_open_label <$> [500; 0; 1000000]%float = ["low"; "budget"; "luxury"].
Proof.
  split; [|split; reflexivity].
  intros H. specialize (H 500%float eq_refl). vm_compute in H. discriminate.
Qed.

(** C9: the assignment of buckets is monotone.  For two prices [p <= q]
    of a column that both receive a label, the label of [p] is at most
    the label of [q] in the order budget < low < mid < upper-mid <
    premium < luxury. *)
Theorem price_bucket_monotone (discounted_price : list float) (i j : nat)
    (p q : float) (lp lq : string) :
  discounted_price !! i = Some p →
  discounted_price !! j = Some q →
  (p <=? q)%float = true →
  price_bucket_of discounted_price !! i = Some (Some lp) →
  price_bucket_of discounted_price !! j = Some (Some lq) →
  (label_rank lp ≤ label_rank lq)%nat.
Proof.
  intros Hi Hj Hpq. unfold price_bucket_of, cut.
  rewrite !list_lookup_fmap, Hi, Hj. simpl.
  destruct (cut_code p bins) as [a|] eqn:Ha; simpl; [|done].
  destruct (cut_code q bins) as [b|] eqn:Hb; simpl; [|done].
  intros [= Hlp] [= Hlq].
  rewrite (label_rank_lookup _ _ Hlp), (label_rank_lookup _ _ Hlq).
  eapply cut_code_mono; eauto.
Qed.

Lemma price_bucket_monotone_witness :
  (label_rank "budget" ≤ label_rank "mid")%nat.
Proof.
  exact (price_bucket_monotone [500; 1500]%float 0 1 500%float 1500%float "budget" "mid"
           eq_refl eq_refl eq_refl eq_refl eq_refl).
Defined.

(** ** Field cleaners *)

Lemma series_apply_lookup {A B : Type} (f : A → result B) xs ys i x :
  series_apply f xs = Ok ys → xs !! i = Some x →
  ∃ y, ys !! i = Some y ∧ f x = Ok y.
Proof.
  revert ys i. induction xs as [|x0 xs IH]; intros ys i; simpl; [done|].
  destruct (f x0) as [y0|e] eqn:Hf; simpl; [|done].
  destruct (series_apply f xs) as [ys0|e]; simpl; [|done].
  intros [= <-]. destruct i as [|i]; simpl.
  - intros [= <-]. eauto.
  - intros Hi. by apply IH.
Qed.

Lemma series_apply_length {A B : Type} (f : A → result B) xs ys :
  series_apply f xs = Ok ys → length ys = length xs.
Proof.
  revert ys. induction xs as [|x0 xs IH]; intros ys; simpl; [by intros [= <-]|].
  destruct (f x0) as [y0|e]; simpl; [|done].
  destruct (series_apply f xs) as [ys0|e]; simpl; [|done].
  intros [= <-]. simpl. f_equal. by apply IH.
Qed.

(** C2: [clean_price] is meant to turn any value into a float, and does so
    for NaN and for text with no digit or point in it; but text that keeps
    two points, or a lone point, once the other characters are removed
    makes [float()] raise.  "Rs.499.00" becomes ".499.00" and raises
    [ValueError], and with it the whole run stops before anything is
    written. *)
Theorem clean_price_raises :
  clean_price (Str "Rs.499.00") = Raise ValueError
  ∧ clean_price (Str "1.2.3") = Raise ValueError
  ∧ clean_price (Str "N.A.") = Raise ValueError
  ∧ clean_price (Str "abc") = Ok 0%float
  ∧ clean_price (Str "") = Ok 0%float
  ∧ clean_price NaN = Ok 0%float
  ∧ ∀ db, preprocessing
        (Some [{| raw_product_name := Str "Wireless Mouse";
                  raw_category := Str "electronics|accessories|mice";
                  raw_discounted_price := Str "Rs.499.00";
                  raw_actual_price := Str "Rs.999.00";
                  raw_rating := Str "4.3";
                  raw_rating_count := Str "1,234" |}]) db
      = Raise ValueError.
Proof. repeat apply conj; reflexivity. Qed.



Lemma trunc_nan v : is_nan v = true → F64.trunc v = 0%Z.
Proof. rewrite is_nan_Prim2SF. unfold F64.trunc. by intros ->. Qed.

(** [fillna(0)] then [astype(int)] on one parsed value. *)
Lemma astype_int_fillna v n :
  F64.astype_int (if is_nan v then 0%float else v) = Ok n →
  (F64.int64_min ≤ n ≤ F64.int64_max)%Z
  ∧ ((F64.int64_min ≤ F64.trunc v ≤ F64.int64_max)%Z → n = F64.trunc v).
Proof.
  destruct (is_nan v) eqn:Hnan.
  - change (F64.astype_int 0) with (Ok (A:=Z) 0%Z).
    intros [= <-]. split; [done|]. intros _. by rewrite trunc_nan.
  - unfold F64.astype_int. rewrite Hnan. simpl.
    destruct (is_infinity v); [done|].
    destruct (F64.int64_min <=? F64.trunc v)%Z eqn:H1;
      destruct (F64.trunc v <=? F64.int64_max)%Z eqn:H2; simpl;
      intros [= <-]; (split; [|lia]); try done; lia.
Qed.




(** ** Feature engine *)

(** C8: the discount of every record is the rounded quotient the
    specification gives, with the actual price as denominator, or 1 when
    the actual price is 0, and the true actual price in the numerator.  A
    record with both prices 0 gets the discount 0.0; no division raises. *)
Theorem discount_percent_formula (actual_price discounted_price : list float)
    (i : nat) (a d : float) :
  actual_price !! i = Some a →
  discounted_price !! i = Some d →
  discount_percent_of actual_price discounted_price !! i
    = Some (spec_discount_percent a d)
  ∧ (a = 0%float → d = 0%float →
     discount_percent_of actual_price discounted_price !! i = Some 0%float).
Proof.
  intros Ha Hd.
  assert (discount_percent_of actual_price discounted_price !! i
          = Some (spec_discount_percent a d)) as Hdp.
  { unfold discount_percent_of, Series.round2, Series.mul_scalar, Series.div,
      Series.sub, Series.replace.
    rewrite !list_lookup_fmap, !lookup_zip_with, list_lookup_fmap, Ha, Hd.
    reflexivity. }
  split; [exact Hdp|].
  intros -> ->. rewrite Hdp. reflexivity.
Qed.

Lemma discount_percent_formula_witness :
  discount_percent_of [0; 999]%float [0; 499]%float !! 0%nat = Some 0%float
  ∧ discount_percent_of [0; 999]%float [0; 499]%float !! 1%nat = Some 50.05%float.
Proof.
  split.
  - exact (proj2 (discount_percent_formula [0; 999]%float [0; 499]%float 0 0%float 0%float
                    eq_refl eq_refl) eq_refl eq_refl).
  - exact (proj1 (discount_percent_formula [0; 999]%float [0; 499]%float 1 999%float 499%float
                    eq_refl eq_refl)).
Defined.

(** ** Category normaliser *)

Lemma category_map_values k v :
  category_map !! k = Some v → v ∈ business_categories.
Proof.
  unfold category_map. intros H%elem_of_list_to_map_2.
  unfold business_categories.
  repeat (apply elem_of_cons in H as [[= _ <-]|H]; [set_solver|]).
  by apply elem_of_nil in H.
Qed.

Lemma business_categories_nonempty v : v ∈ business_categories → v ≠ "".
Proof.
  unfold business_categories. intros H ->.
  repeat (apply elem_of_cons in H as [[=]|H]).
  by apply elem_of_nil in H.
Qed.

Lemma main_category_cases (segment : option string) :
  let v := default "Other" (segment ≫= (category_map !!.)) in
  (v ∈ main_categories ∧ v ≠ "")
  ∧ ((∀ seg, segment = Some seg → category_map !! seg = None) → v = "Other").
Proof.
  destruct segment as [seg|]; simpl.
  - destruct (category_map !! seg) as [v|] eqn:Hv; simpl.
    + split; [|intros H; by rewrite (H seg eq_refl) in Hv].
      split; [|by eapply business_categories_nonempty, category_map_values].
      unfold main_categories. apply elem_of_app. left. by eapply category_map_values.
    + split; [|done]. split; [|done].
      unfold main_categories. apply elem_of_app. right. set_solver.
  - split; [|done]. split; [|done].
      unfold main_categories. apply elem_of_app. right. set_solver.
Qed.

(** C4: every cell of the main-category column is one of the nine business
    categories or "Other", and is never the empty text; the column has one
    cell per record (nothing raises, nothing is lost); and a record whose
    first breadcrumb segment is not a key of the table gets "Other". *)
Theorem main_category_total (category : list string) :
  length (main_category_of (main_category_raw_of category)) = length category
  ∧ Forall (λ v, v ∈ main_categories ∧ v ≠ "")
           (main_category_of (main_category_raw_of category))
  ∧ ∀ i c, category !! i = Some c →
           (∀ seg, split "|" c !! 0%nat = Some seg → category_map !! seg = None) →
           main_category_of (main_category_raw_of category) !! i = Some "Other".
Proof.
  unfold main_category_of, main_category_raw_of, Series.fillna_str, Series.map_dict,
    Series.str_get0, Series.str_split.
  split; [by rewrite !length_fmap|]. split.
  - apply Forall_forall. intros v Hv.
    repeat (apply list_elem_of_fmap in Hv as (? & -> & Hv)).
    apply main_category_cases.
  - intros i c Hc Hseg. rewrite !list_lookup_fmap, Hc. simpl. f_equal.
    by apply main_category_cases.
Qed.

Lemma main_category_total_witness :
  main_category_of (main_category_raw_of ["unknowntype|foo"; "home&kitchen|cookware"])
    !! 0%nat = Some "Other".
Proof.
  refine (proj2 (proj2 (main_category_total ["unknowntype|foo"; "home&kitchen|cookware"]))
            0%nat "unknowntype|foo" eq_refl _).
  intros seg Hseg. injection Hseg as <-. vm_compute. reflexivity.
Defined.

(** ** The frame, row by row *)

Lemma ap_lookup {A B : Type} (fs : list (A → B)) (xs : list A) i :
  (fs <*> xs) !! i = fs !! i ≫= (λ f, xs !! i ≫= (λ x, Some (f x))).
Proof. unfold ap. apply lookup_zip_with. Qed.

(** Line [i] of the input gives row [i] of the frame, and that row is the
    record the line yields on its own. *)
Lemma features_lookup raw df i :
  features raw = Ok df →
  match raw !! i with
  | Some x => ∃ r, record_of i x = Ok r ∧ df !! i = Some r
  | None => df !! i = None
  end.
Proof.
  unfold features. intros H.
  destruct (clean_prices (raw_discounted_price <$> raw)) as [dp|] eqn:Hdp; [|done].
  destruct (clean_prices (raw_actual_price <$> raw)) as [acp|] eqn:Hap; [|done].
  destruct (clean_rating_count (raw_rating_count <$> raw)) as [rc|] eqn:Hrc; [|done].
  simpl in H. injection H as <-.
  rewrite !ap_lookup.
  destruct (raw !! i) as [x|] eqn:Hx.
  - unfold clean_prices in Hdp, Hap.
    unfold clean_rating_count, Series.astype_int in Hrc.
    eapply series_apply_lookup in Hdp as (d & Hd & Hcd);
      [|by rewrite list_lookup_fmap, Hx].
    eapply series_apply_lookup in Hap as (a & Ha & Hca);
      [|by rewrite list_lookup_fmap, Hx].
    eapply series_apply_lookup in Hrc as (n & Hn & Hcn); last first.
    { unfold Series.fillna, Series.to_numeric, Series.str_remove, Series.astype_str.
      rewrite !list_lookup_fmap, Hx. reflexivity. }
    simpl in Hcd, Hca, Hcn. fold (rating_count_text (raw_rating_count x)) in Hcn.
    unfold record_of. rewrite Hcd, Hca. simpl. rewrite Hcn. simpl.
    eexists. split; [reflexivity|].
    unfold discount_percent_of, price_savings_of, popularity_score_of, price_bucket_of,
      main_category_of, main_category_raw_of, cut, clean_rating,
      Series.round2, Series.mul_scalar, Series.div, Series.sub, Series.replace,
      Series.mul_int, Series.fillna, Series.fillna_str, Series.map_dict,
      Series.str_get0, Series.str_split, Series.to_numeric.
    rewrite !list_lookup_fmap, !lookup_zip_with, !list_lookup_fmap.
    rewrite (lookup_seq_lt 0 (length raw) i) by (by eapply lookup_lt_Some).
    rewrite Hx, Hd, Ha, Hn. reflexivity.
  - rewrite (list_lookup_fmap Build_Row (seq 0 (length raw)) i).
    rewrite lookup_seq_ge by (by apply lookup_ge_None). done.
Qed.

Lemma features_length raw df : features raw = Ok df → length df = length raw.
Proof.
  intros H. apply Nat.le_antisymm.
  - destruct (decide (length df ≤ length raw)%nat) as [|Hn]; [done|].
    pose proof (features_lookup raw df (length raw) H) as Hl.
    rewrite (lookup_ge_None_2 raw (length raw)) in Hl by done.
    apply lookup_ge_None in Hl. lia.
  - destruct (decide (length raw ≤ length df)%nat) as [|Hn]; [done|].
    pose proof (features_lookup raw df (length df) H) as Hl.
    destruct (raw !! length df) as [x|] eqn:Hx.
    + destruct Hl as (r & _ & Hr). apply lookup_lt_Some in Hr. lia.
    + apply lookup_ge_None in Hx. lia.
Qed.

Lemma features_index raw df :
  features raw = Ok df → row_index <$> df = seq 0 (length raw).
Proof.
  intros H. apply list_eq. intros i.
  pose proof (features_lookup raw df i H) as Hl.
  rewrite list_lookup_fmap.
  destruct (raw !! i) as [x|] eqn:Hx.
  - destruct Hl as (r & Hrec & ->). simpl.
    rewrite lookup_seq_lt by (by eapply lookup_lt_Some). simpl. f_equal.
    unfold record_of in Hrec.
    destruct (clean_price (raw_discounted_price x)); simpl in Hrec; [|done].
    destruct (clean_price (raw_actual_price x)); simpl in Hrec; [|done].
    destruct (F64.astype_int _); simpl in Hrec; [|done].
    by injection Hrec as <-.
  - rewrite Hl. simpl. symmetry. apply lookup_seq_ge. by apply lookup_ge_None.
Qed.

(** ** End-to-end scenario *)

(** C3, as the code computes it: the row of the scenario comes out with
    main category "Electronics", prices 499.0 and 999.0 and discount 50.05;
    the popularity score is 4.3 * 1234 = 5306.2, and the price 499 lies in
    the first bin, "budget". *)
Theorem wireless_mouse_row :
  etl [wireless_mouse]
  = Ok [{| Sales.product_name := "wireless mouse";
           Sales.category := "electronics|accessories|mice";
           Sales.main_category := "Electronics";
           Sales.discounted_price := 499;
           Sales.actual_price := 999;
           Sales.price_savings := 500;
           Sales.discount_percent := 50.05;
           Sales.rating := 4.3;
           Sales.rating_count := 1234;
           Sales.popularity_score := 5306.2;
           Sales.price_bucket := Some "budget" |}].
Proof. vm_compute. reflexivity. Qed.

(** C3, as the specification states it, fails: the output row of the
    scenario has neither the popularity score 5286.2 nor the bucket "low". *)
Lemma wireless_mouse_not_as_stated :
  ¬ (∃ r, etl [wireless_mouse] = Ok [r]
          ∧ Sales.main_category r = "Electronics"
          ∧ Sales.discounted_price r = 499%float
          ∧ Sales.actual_price r = 999%float
          ∧ Sales.discount_percent r = 50.05%float
          ∧ Sales.popularity_score r = 5286.2%float
          ∧ Sales.price_bucket r = Some "low")
  ∧ ¬ (∃ r, etl [wireless_mouse] = Ok [r] ∧ Sales.popularity_score r = 5286.2%float)
  ∧ ¬ (∃ r, etl [wireless_mouse] = Ok [r] ∧ Sales.price_bucket r = Some "low").
Proof.
  assert (∀ r, etl [wireless_mouse] = Ok [r] →
               Sales.popularity_score r = 5306.2%float
               ∧ Sales.price_bucket r = Some "budget") as Hrow.
  { intros r Hr. vm_compute in Hr. injection Hr as <-. split; reflexivity. }
  assert (5306.2%float ≠ 5286.2%float) as Hne.
  { intros H. apply (f_equal (λ x, (x =? 5286.2)%float)) in H.
    vm_compute in H. discriminate. }
  split; [|split].
  - intros (r & Hr & _ & _ & _ & _ & _ & Hb).
    destruct (Hrow r Hr) as [_ Hb']. rewrite Hb' in Hb. discriminate.
  - intros (r & Hr & Hp).
    destruct (Hrow r Hr) as [Hp' _]. rewrite Hp' in Hp. done.
  - intros (r & Hr & Hb).
    destruct (Hrow r Hr) as [_ Hb']. rewrite Hb' in Hb. discriminate.
Qed.

(** ** Quality filter *)

Section key_equivalence.

Lemma SFeqb_sym x y : SFeqb x y = SFeqb y x.
Proof.
  unfold SFeqb. rewrite (SFcompare_antisym y x).
  by destruct (SFcompare y x) as [[]|].
Qed.

Lemma SFeqb_leb x y : SFeqb x y = SFleb x y && SFleb y x.
Proof.
  unfold SFeqb, SFleb. rewrite (SFcompare_antisym x y).
  by destruct (SFcompare x y) as [[]|].
Qed.

Lemma SFeqb_trans x y z : SFeqb x y = true → SFeqb y z = true → SFeqb x z = true.
Proof.
  rewrite !SFeqb_leb, !andb_true_iff. intros [H1 H2] [H3 H4].
  split; eapply SFleb_trans; eauto.
Qed.

Lemma eqb_not_nan x y : (x =? y)%float = true → is_nan x = false ∧ is_nan y = false.
Proof.
  rewrite FloatAxioms.eqb_spec. unfold SFeqb. intros H.
  split; apply not_true_is_false; rewrite is_nan_Prim2SF; intros E; rewrite E in H;
    simpl in H; try done.
  by destruct (Prim2SF x).
Qed.

Lemma same_refl x : F64.same x x = true.
Proof. unfold F64.same, is_nan. by destruct (x =? x)%float. Qed.

Lemma same_sym x y : F64.same x y = F64.same y x.
Proof.
  unfold F64.same. rewrite !FloatAxioms.eqb_spec, (SFeqb_sym (Prim2SF x)).
  by rewrite (andb_comm (is_nan x)).
Qed.

Lemma same_trans x y z : F64.same x y = true → F64.same y z = true → F64.same x z = true.
Proof.
  unfold F64.same. rewrite !orb_true_iff, !andb_true_iff.
  intros [Hxy|[Hx Hy]] [Hyz|[Hy' Hz]].
  - left. rewrite FloatAxioms.eqb_spec in *. by eapply SFeqb_trans.
  - apply eqb_not_nan in Hxy as [_ ?]. congruence.
  - apply eqb_not_nan in Hyz as [? _]. congruence.
  - by right.
Qed.

Lemma key_same_refl k : key_same k k = true.
Proof. unfold key_same. by rewrite String.eqb_refl, same_refl. Qed.

Lemma key_same_sym k1 k2 : key_same k1 k2 = key_same k2 k1.
Proof. unfold key_same. by rewrite String.eqb_sym, same_sym. Qed.

Lemma key_same_trans k1 k2 k3 :
  key_same k1 k2 = true → key_same k2 k3 = true → key_same k1 k3 = true.
Proof.
  unfold key_same. rewrite !andb_true_iff, !String.eqb_eq.
  intros [-> H1] [-> H2]. split; [done|]. by eapply same_trans.
Qed.

End key_equivalence.

Lemma select_fmap {A B : Type} (g : A → B) (f : B → bool) (l : list A) :
  select l (f <$> (g <$> l)) = filter (λ r, f (g r) = true) l.
Proof.
  induction l as [|r l IH]; [done|]. csimpl.
  rewrite filter_cons. destruct (f (g r)) eqn:Hf.
  - rewrite decide_True by done. by rewrite IH.
  - rewrite decide_False by (by intros ?). done.
Qed.

Lemma select_sublist {A : Type} (l : list A) (mask : list bool) :
  select l mask `sublist_of` l.
Proof.
  revert mask. induction l as [|r l IH]; intros [|b mask]; simpl;
    try apply sublist_nil_l.
  destruct b; [by apply sublist_skip | by apply sublist_cons].
Qed.

Lemma remove_bad_data_filter (df : list Row) :
  remove_bad_data df = drop_duplicates (filter (λ r, valid_prices r = true) df).
Proof.
  unfold remove_bad_data, Series.gt, Series.ge. f_equal.
  rewrite !select_fmap, list_filter_filter. apply list_filter_iff.
  intros r. unfold valid_prices. rewrite andb_true_iff. tauto.
Qed.

(** Whether some row of [l] has the key of [r]. *)
Lemma existsb_key_same k (ks : list (string * float)) :
  existsb (key_same k) ks = true ↔ ∃ k', k' ∈ ks ∧ key_same k k' = true.
Proof.
  rewrite existsb_exists. setoid_rewrite list_elem_of_In. done.
Qed.

Lemma duplicated_from_snoc seen (l : list Row) (r : Row) :
  select (l ++ [r]) (negb <$> duplicated_from seen (subset_key <$> (l ++ [r])))
  = select l (negb <$> duplicated_from seen (subset_key <$> l))
    ++ (if existsb (key_same (subset_key r)) (seen ++ (subset_key <$> l)) then [] else [r]).
Proof.
  revert seen. induction l as [|r0 l IH]; intros seen; csimpl.
  - rewrite app_nil_r. by destruct (existsb _ seen).
  - rewrite IH.
    assert (existsb (key_same (subset_key r)) ((subset_key r0 :: seen) ++ (subset_key <$> l))
            = existsb (key_same (subset_key r)) (seen ++ subset_key r0 :: (subset_key <$> l)))
      as ->.
    { simpl. rewrite !existsb_app. simpl.
      destruct (key_same _ (subset_key r0)), (existsb _ seen); simpl; done. }
    by destruct (existsb (key_same (subset_key r0)) seen).
Qed.

Lemma drop_duplicates_nil : drop_duplicates [] = [].
Proof. done. Qed.

Lemma drop_duplicates_snoc (l : list Row) (r : Row) :
  drop_duplicates (l ++ [r])
  = drop_duplicates l
    ++ (if existsb (key_same (subset_key r)) (subset_key <$> l) then [] else [r]).
Proof. unfold drop_duplicates, duplicated. by rewrite duplicated_from_snoc. Qed.

Lemma drop_duplicates_sublist (l : list Row) : drop_duplicates l `sublist_of` l.
Proof. apply select_sublist. Qed.

Lemma drop_duplicates_prefix (l l' : list Row) :
  drop_duplicates l `prefix_of` drop_duplicates (l ++ l').
Proof.
  induction l' as [|x l' IH] using rev_ind.
  - by rewrite app_nil_r.
  - rewrite app_assoc, drop_duplicates_snoc.
    etrans; [exact IH|]. by apply prefix_app_r.
Qed.

Lemma has_key_false (r : Row) (l : list Row) :
  existsb (key_same (subset_key r)) (subset_key <$> l) = false
  ↔ ∀ r', r' ∈ l → key_same (subset_key r') (subset_key r) = false.
Proof.
  rewrite <- not_true_iff_false, existsb_key_same. split.
  - intros Hno r' Hr'. apply not_true_is_false. intros Hk. apply Hno.
    exists (subset_key r'). split; [by apply list_elem_of_fmap_2|].
    by rewrite key_same_sym.
  - intros Hall (k & Hk & Hsame). apply list_elem_of_fmap in Hk as (r' & -> & Hr').
    rewrite key_same_sym, (Hall r' Hr') in Hsame. done.
Qed.

Lemma drop_duplicates_first (l1 l2 : list Row) (r : Row) :
  (∀ r', r' ∈ l1 → key_same (subset_key r') (subset_key r) = false) →
  r ∈ drop_duplicates (l1 ++ r :: l2).
Proof.
  intros Hfirst. apply has_key_false in Hfirst.
  replace (l1 ++ r :: l2) with ((l1 ++ [r]) ++ l2) by (by rewrite <- app_assoc).
  eapply elem_of_prefix; [|apply drop_duplicates_prefix].
  rewrite drop_duplicates_snoc, Hfirst. set_solver.
Qed.

Lemma drop_duplicates_keys (l : list Row) :
  (∀ i j ri rj,
      drop_duplicates l !! i = Some ri → drop_duplicates l !! j = Some rj →
      key_same (subset_key ri) (subset_key rj) = true → i = j)
  ∧ (∀ r, r ∈ l →
      ∃ r', r' ∈ drop_duplicates l ∧ key_same (subset_key r) (subset_key r') = true).
Proof.
  induction l as [|r l [IHa IHb]] using rev_ind.
  - split; [by intros i j ri rj [=]|]. intros r Hr. by apply elem_of_nil in Hr.
  - rewrite drop_duplicates_snoc.
    destruct (existsb (key_same (subset_key r)) (subset_key <$> l)) eqn:Hdup.
    + rewrite app_nil_r. split; [done|].
      intros r0 [Hr0|Hr0%list_elem_of_singleton]%elem_of_app; [by apply IHb|].
      subst r0. apply existsb_key_same in Hdup as (k & Hk & Hsame).
      apply list_elem_of_fmap in Hk as (r1 & -> & Hr1).
      destruct (IHb r1 Hr1) as (r' & Hr' & Hsame').
      exists r'. split; [done|]. by eapply key_same_trans.
    + assert (∀ r', r' ∈ drop_duplicates l →
                    key_same (subset_key r') (subset_key r) = false) as Hnew.
      { intros r' Hr'. apply (proj1 (has_key_false r l) Hdup).
        eapply elem_of_sublist; [done|apply drop_duplicates_sublist]. }
      split.
      * intros i j ri rj Hi Hj Hsame.
        apply lookup_snoc_Some in Hi as [[Hil Hi]|[Hil <-]];
          apply lookup_snoc_Some in Hj as [[Hjl Hj]|[Hjl <-]].
        -- by eapply IHa.
        -- rewrite Hnew in Hsame; [done|]. by eapply list_elem_of_lookup_2.
        -- rewrite key_same_sym, Hnew in Hsame; [done|].
           by eapply list_elem_of_lookup_2.
        -- lia.
      * intros r0 [Hr0|Hr0%list_elem_of_singleton]%elem_of_app.
        -- destruct (IHb r0 Hr0) as (r' & Hr' & Hsame').
           exists r'. split; [|done]. apply elem_of_app. by left.
        -- subst r0. exists r. split; [|apply key_same_refl].
           apply elem_of_app. right. by apply list_elem_of_singleton.
Qed.

(** C5: the quality filter.  With [kept] the records of the frame whose
    actual price is above 0 and whose discounted price is at least 0, in
    frame order, the output is drawn from [kept] in that order; a record
    of [kept] that no earlier record of [kept] shares its key (product
    name, discounted price) with is in the output; no two rows of the
    output share a key; and every key of [kept] has its row in the
    output.  So the output holds exactly one row per key, the first. *)
Theorem quality_filter_first_occurrence (df : list Row) :
  let kept := filter (λ r, valid_prices r = true) df in
  (∀ r, r ∈ kept ↔
        r ∈ df ∧ (0 <? actual_price r)%float = true
               ∧ (0 <=? discounted_price r)%float = true)
  ∧ remove_bad_data df `sublist_of` kept
  ∧ (∀ l1 r l2, kept = l1 ++ r :: l2 →
        (∀ r', r' ∈ l1 → key_same (subset_key r') (subset_key r) = false) →
        r ∈ remove_bad_data df)
  ∧ (∀ i j ri rj,
        remove_bad_data df !! i = Some ri → remove_bad_data df !! j = Some rj →
        key_same (subset_key ri) (subset_key rj) = true → i = j)
  ∧ (∀ r, r ∈ kept →
        ∃ r', r' ∈ remove_bad_data df
              ∧ key_same (subset_key r) (subset_key r') = true).
Proof.
  intros kept. rewrite remove_bad_data_filter. fold kept.
  split; [|split; [|split]].
  - intros r. unfold kept. rewrite list_elem_of_filter.
    unfold valid_prices. rewrite andb_true_iff. tauto.
  - apply drop_duplicates_sublist.
  - intros l1 r l2 -> Hfirst. by apply drop_duplicates_first.
  - apply drop_duplicates_keys.
Qed.

Lemma quality_filter_first_occurrence_witness :
  ∃ r, sample_frame !! 0%nat = Some r
       ∧ product_name r = "wireless mouse"
       ∧ r ∈ remove_bad_data sample_frame.
Proof.
  set (r0 := default (Build_Row 0 "" "" None "" 0 0 0 0 0 0 0 None) (sample_frame !! 0%nat)).
  set (r1 := default (Build_Row 0 "" "" None "" 0 0 0 0 0 0 0 None) (sample_frame !! 1%nat)).
  exists r0. split; [vm_compute; reflexivity|]. split; [vm_compute; reflexivity|].
  refine (proj1 (proj2 (proj2 (quality_filter_first_occurrence sample_frame)))
            [] r0 [r1] _ _).
  - vm_compute. reflexivity.
  - intros r' Hr'. by apply elem_of_nil in Hr'.
Defined.

(** ** Order of the records *)

Lemma remove_bad_data_sublist (df : list Row) : remove_bad_data df `sublist_of` df.
Proof.
  unfold remove_bad_data, drop_duplicates.
  etrans; [apply select_sublist|]. etrans; apply select_sublist.
Qed.

Lemma features_Forall2 raw df :
  features raw = Ok df →
  Forall2 (λ x r, record_of (row_index r) x = Ok r) raw df.
Proof.
  intros H. apply Forall2_same_length_lookup_2.
  - symmetry. by apply features_length.
  - intros i x r Hx Hr.
    pose proof (features_lookup raw df i H) as Hl. rewrite Hx in Hl.
    destruct Hl as (r' & Hrec & Hr'). rewrite Hr in Hr'. injection Hr' as <-.
    assert (row_index r = i) as ->; [|done].
    pose proof (features_index raw df H) as Hidx.
    apply (f_equal (.!! i)) in Hidx.
    rewrite list_lookup_fmap, Hr in Hidx. simpl in Hidx.
    rewrite lookup_seq_lt in Hidx by (by eapply lookup_lt_Some).
    by injection Hidx.
Qed.

(** C10: the stages keep the records in input order.  Row [i] of the
    frame is the record of line [i] of the file and carries the index
    label [i]; the price conditions and the removal of duplicates each keep
    a subsequence of what they receive; and the rows written to the
    [sales] table are the projections of a subsequence of the frame, whose
    index labels form a subsequence of 0, 1, ..., n-1. *)
Theorem order_preserved (raw : list RawRow) (rows : list Sales.row) :
  etl raw = Ok rows →
  ∃ df,
    features raw = Ok df
    ∧ Forall2 (λ x r, record_of (row_index r) x = Ok r) raw df
    ∧ row_index <$> df = seq 0 (length raw)
    ∧ filter (λ r, valid_prices r = true) df `sublist_of` df
    ∧ remove_bad_data df `sublist_of` filter (λ r, valid_prices r = true) df
    ∧ row_index <$> remove_bad_data df `sublist_of` seq 0 (length raw)
    ∧ rows = project <$> remove_bad_data df.
Proof.
  unfold etl. intros H.
  destruct (features raw) as [df|] eqn:Hf; [|done].
  simpl in H. injection H as <-.
  exists df. split; [done|].
  split; [by apply features_Forall2|].
  split; [by apply features_index|].
  split; [apply sublist_filter|].
  split; [rewrite remove_bad_data_filter; apply drop_duplicates_sublist|].
  split; [|done].
  rewrite <- (features_index raw df Hf).
  apply fmap_sublist, remove_bad_data_sublist.
Qed.

Lemma order_preserved_witness :
  ∃ df, features sample_input = Ok df
        ∧ row_index <$> remove_bad_data df `sublist_of` seq 0 3.
Proof.
  destruct (order_preserved sample_input
              (match etl sample_input with Ok rows => rows | Raise _ => [] end))
    as (df & Hf & _ & _ & _ & _ & Hsub & _).
  - vm_compute. reflexivity.
  - exists df. split; [exact Hf | exact Hsub].
Defined.

(** ** The write to the store *)

Lemma create_index_tables iname tname col db :
  tables (create_index iname tname col db) = tables db.
Proof. unfold create_index. by destruct (indexes db !! iname). Qed.

Lemma create_index_dropped iname col db :
  filter (λ kv : string * (string * string), kv.2.1 ≠ "sales")
         (indexes (create_index iname "sales" col db))
  = filter (λ kv : string * (string * string), kv.2.1 ≠ "sales") (indexes db).
Proof.
  unfold create_index. destruct (indexes db !! iname) as [y|] eqn:Hi; simpl; [done|].
  apply map_filter_insert_not'; simpl; [by intros ?|].
  intros y Hy. by rewrite Hi in Hy.
Qed.

Lemma save_tables rows db : tables (save rows db) !! "sales" = Some rows.
Proof.
  unfold save. rewrite !create_index_tables. simpl. apply lookup_insert_eq.
Qed.

Lemma to_sql_save rows db :
  to_sql "sales" rows (save rows db) = to_sql "sales" rows db.
Proof.
  unfold to_sql, drop_table. f_equal.
  - unfold save. rewrite !create_index_tables. simpl.
    by rewrite insert_delete_eq, insert_insert_eq.
  - simpl. unfold save. rewrite !create_index_dropped. simpl.
    apply map_filter_filter_l. done.
Qed.

Lemma save_idempotent rows db : save rows (save rows db) = save rows db.
Proof. unfold save at 1 3. by rewrite to_sql_save. Qed.

(** C6: a second run on the same input changes nothing.  When a run on
    input [csv] succeeds and leaves the store [db1], a run on the same
    input from [db1] succeeds and leaves [db1] again; the [sales] table
    holds the rows computed from the input, whatever the store held
    before the run. *)
Theorem preprocessing_idempotent (csv : option (list RawRow)) (db db1 : Database) :
  preprocessing csv db = Ok db1 →
  preprocessing csv db1 = Ok db1
  ∧ (∃ raw rows, csv = Some raw ∧ etl raw = Ok rows
                 ∧ tables db1 !! "sales" = Some rows)
  ∧ ∀ db' db2, preprocessing csv db' = Ok db2 →
               tables db2 !! "sales" = tables db1 !! "sales".
Proof.
  unfold preprocessing. destruct csv as [raw|]; [|intros H; discriminate H].
  destruct (etl raw) as [rows|] eqn:He; simpl; [|intros H; discriminate H].
  intros [= <-]. split; [by rewrite save_idempotent|]. split.
  - exists raw, rows. by rewrite save_tables.
  - intros db' db2 [= <-]. by rewrite !save_tables.
Qed.

Lemma preprocessing_idempotent_witness :
  ∃ db1, preprocessing (Some sample_input) empty_db = Ok db1
         ∧ preprocessing (Some sample_input) db1 = Ok db1.
Proof.
  set (db1 := match preprocessing (Some sample_input) empty_db with
              | Ok d => d
              | Raise _ => empty_db
              end).
  assert (preprocessing (Some sample_input) empty_db = Ok db1) as H.
  { vm_compute. reflexivity. }
  exists db1. split; [exact H|].
  exact (proj1 (preprocessing_idempotent (Some sample_input) empty_db db1 H)).
Defined.

(** * Further properties of the script *)

(** ** Text helpers *)


Lemma str_filter_id keep s : str_all keep s = true → str_filter keep s = s.
Proof.
  induction s as [|c s IH]; simpl; [done|].
  intros [Hc Hs]%andb_true_iff. by rewrite Hc, IH.
Qed.


Lemma split_nonempty sep s : split sep s ≠ [].
Proof.
  destruct s as [|c s]; simpl; [done|].
  destruct (Ascii.eqb c sep); [done|]. by destruct (split sep s).
Qed.


(** Joining the pieces with the separator gives the text back. *)
Lemma concat_split sep s : String.concat (String sep "") (split sep s) = s.
Proof.
  induction s as [|c s IH]; simpl; [done|].
  destruct (Ascii.eqb_spec c sep) as [->|Hne].
  - pose proof (split_nonempty sep s) as Hn.
    destruct (split sep s) as [|w ws] eqn:E; [done|].
    change (String.concat (String sep "") ("" :: w :: ws))
      with (String sep (String.concat (String sep "") (w :: ws))).
    by rewrite IH.
  - pose proof (split_nonempty sep s) as Hn.
    destruct (split sep s) as [|w ws] eqn:E; [done|].
    destruct ws as [|w' ws].
    + simpl in *. by rewrite IH.
    + change (String.concat (String sep "") (String c w :: w' :: ws))
        with (String c (String.concat (String sep "") (w :: w' :: ws))).
      by rewrite IH.
Qed.


Lemma split_no_sep sep s : Forall (λ w, count_char sep w = 0%nat) (split sep s).
Proof.
  induction s as [|c s IH]; simpl; [by repeat constructor|].
  destruct (Ascii.eqb c sep) eqn:Hc; [by constructor|].
  destruct (split sep s) as [|w ws]; [by repeat constructor; simpl; rewrite Hc|].
  apply Forall_cons in IH as [Hw Hws]. constructor; [|done].
  simpl. by rewrite Hc.
Qed.




(** ** When [clean_price] raises *)







(** ** The normal form [clean_text] produces *)














(** ** The first breadcrumb segment *)

Lemma split_head sep k rest :
  count_char sep k = 0%nat →
  split sep (k ++ String sep rest)%string = k :: split sep rest.
Proof.
  induction k as [|c k IH]; simpl.
  - intros _. by rewrite Ascii.eqb_refl.
  - destruct (Ascii.eqb c sep); [done|]. intros H. by rewrite (IH H).
Qed.

Lemma split_whole sep k : count_char sep k = 0%nat → split sep k = [k].
Proof.
  induction k as [|c k IH]; simpl; [done|].
  destruct (Ascii.eqb c sep); [done|]. intros H. by rewrite (IH H).
Qed.

(** X5: the raw main category of a record is the text of its category
    before the first "|": it holds no "|", and the category is that text
    alone or that text, a "|", and the rest. *)
Theorem main_category_raw_first_segment (category : list string) (i : nat) (c : string) :
  category !! i = Some c →
  ∃ seg, main_category_raw_of category !! i = Some (Some seg)
         ∧ count_char "|" seg = 0%nat
         ∧ (c = seg ∨ ∃ rest, c = (seg ++ String "|" rest)%string).
Proof.
  intros Hc. unfold main_category_raw_of, Series.str_get0, Series.str_split.
  rewrite !list_lookup_fmap, Hc. simpl.
  pose proof (concat_split "|" c) as Hcat.
  pose proof (split_no_sep "|" c) as Hno.
  pose proof (split_nonempty "|" c) as Hne.
  destruct (split "|" c) as [|seg ws]; [done|].
  apply Forall_cons in Hno as [Hseg _].
  exists seg. split; [done|]. split; [done|].
  destruct ws as [|w ws]; [left; by simpl in Hcat|].
  right. exists (String.concat "|" (w :: ws)). by rewrite <- Hcat.
Qed.

Lemma main_category_raw_first_segment_witness :
  ∃ seg, main_category_raw_of ["electronics|accessories|mice"] !! 0%nat = Some (Some seg)
         ∧ count_char "|" seg = 0%nat
         ∧ ("electronics|accessories|mice" = seg
            ∨ ∃ rest, "electronics|accessories|mice" = (seg ++ String "|" rest)%string).
Proof.
  exact (main_category_raw_first_segment ["electronics|accessories|mice"] 0
           "electronics|accessories|mice" eq_refl).
Defined.

Lemma category_map_keys k v : category_map !! k = Some v → count_char "|" k = 0%nat.
Proof.
  unfold category_map. intros H%elem_of_list_to_map_2.
  repeat (apply elem_of_cons in H as [[= -> _]|H]; [reflexivity|]).
  by apply elem_of_nil in H.
Qed.

(** X4: only the first segment decides the main category.  A category
    that is a key of the table, alone or followed by "|" and anything,
    gets the display name the table gives that key. *)
Theorem main_category_of_known_key (category : list string) (i : nat)
    (k v rest : string) :
  category_map !! k = Some v →
  category !! i = Some k ∨ category !! i = Some (k ++ String "|" rest)%string →
  main_category_of (main_category_raw_of category) !! i = Some v.
Proof.
  intros Hk Hc. pose proof (category_map_keys k v Hk) as Hno.
  unfold main_category_of, main_category_raw_of, Series.fillna_str, Series.map_dict,
    Series.str_get0, Series.str_split.
  rewrite !list_lookup_fmap.
  destruct Hc as [-> | ->]; simpl.
  - rewrite (split_whole "|" k Hno). simpl. by rewrite Hk.
  - rewrite (split_head "|" k rest Hno). simpl. by rewrite Hk.
Qed.

Lemma main_category_of_known_key_witness :
  main_category_of (main_category_raw_of ["home&kitchen|cookware|pans"]) !! 0%nat
  = Some "Home & Kitchen".
Proof.
  apply (main_category_of_known_key ["home&kitchen|cookware|pans"] 0
           "home&kitchen" "Home & Kitchen" "cookware|pans").
  - vm_compute. reflexivity.
  - right. reflexivity.
Defined.

(** ** Prices that get no bucket *)

Lemma leb_ltb_trans x y z :
  (x <=? y)%float = true → (y <? z)%float = true → (x <? z)%float = true.
Proof.
  intros Hxy Hyz.
  destruct (leb_not_nan _ _ Hxy) as [Hx Hy], (ltb_not_nan _ _ Hyz) as [_ Hz].
  rewrite ltb_negb_leb in Hyz |- * by done.
  apply negb_true_iff in Hyz. apply negb_true_iff.
  destruct (z <=? x)%float eqn:Hzx; [|done].
  by rewrite (leb_trans _ _ _ Hzx Hxy) in Hyz.
Qed.

Lemma cut_bins_above p :
  (999999 <? p)%float = true → cut_code p bins = None.
Proof.
  intros H. unfold cut_code, bins. simpl searchsorted_left.
  rewrite !(leb_ltb_trans _ 999999 p) by done.
  simpl. by rewrite orb_true_r.
Qed.

Lemma cut_bins_below p :
  (p <=? 0)%float = true → cut_code p bins = None.
Proof.
  intros H. destruct (leb_not_nan _ _ H) as [Hp _].
  unfold cut_code, bins. simpl searchsorted_left.
  rewrite (ltb_negb_leb 0 p) by done. rewrite H. simpl. by rewrite orb_true_r.
Qed.

Lemma cut_bins_nan p : is_nan p = true → cut_code p bins = None.
Proof. intros H. unfold cut_code. by rewrite H. Qed.

Lemma cut_bins_None p :
  (c ← cut_code p bins; labels !! c) = None
  ↔ is_nan p = true ∨ (p <=? 0)%float = true ∨ (999999 <? p)%float = true.
Proof.
  split.
  - intros Hnone. destruct (is_nan p) eqn:Hnan; [by left|]. right.
    destruct (p <=? 0)%float eqn:H0; [by left|]. right.
    destruct (999999 <? p)%float eqn:Hm; [done|].
    rewrite cut_bins_right_closed in Hnone; [done| |].
    + rewrite ltb_negb_leb by done. by rewrite H0.
    + rewrite ltb_negb_leb in Hm by done. by apply negb_false_iff in Hm.
  - intros [H|[H|H]].
    + by rewrite cut_bins_nan.
    + by rewrite cut_bins_below.
    + by rewrite cut_bins_above.
Qed.

(** X6: a price gets no bucket exactly when it is NaN, at most 0, or
    above 999999; every other price gets one of the six labels. *)
Theorem price_bucket_none_iff (discounted_price : list float) (i : nat) (p : float) :
  discounted_price !! i = Some p →
  (price_bucket_of discounted_price !! i = Some None
   ↔ is_nan p = true ∨ (p <=? 0)%float = true ∨ (999999 <? p)%float = true)
  ∧ (∀ l, price_bucket_of discounted_price !! i = Some (Some l) → l ∈ labels).
Proof.
  intros Hp. unfold price_bucket_of, cut. rewrite list_lookup_fmap, Hp. simpl.
  split.
  - rewrite <- cut_bins_None. split; [by intros [= ->]|by intros ->].
  - intros l [= Hl]. destruct (cut_code p bins) as [c|]; simpl in Hl; [|done].
    by eapply list_elem_of_lookup_2.
Qed.

Lemma price_bucket_none_iff_witness :
  price_bucket_of [0; 1000000]%float !! 0%nat = Some None
  ∧ price_bucket_of [0; 1000000]%float !! 1%nat = Some None.
Proof.
  split.
  - apply (proj1 (price_bucket_none_iff [0; 1000000]%float 0 0%float eq_refl)).
    right. left. reflexivity.
  - apply (proj1 (price_bucket_none_iff [0; 1000000]%float 1 1000000%float eq_refl)).
    right. right. reflexivity.
Defined.

(** ** When the run succeeds *)







(** ** What every written row satisfies *)

Lemma ltb_zero_neq a : (0 <? a)%float = true → (a =? 0)%float = false.
Proof.
  intros H. destruct (ltb_not_nan _ _ H) as [H0 Ha].
  rewrite ltb_negb_leb in H by done. apply negb_true_iff in H.
  rewrite FloatAxioms.eqb_spec, SFeqb_leb, <- !FloatAxioms.leb_spec, H. done.
Qed.

Lemma leb_zero_eqb d :
  (0 <=? d)%float = true → (d <=? 0)%float = (d =? 0)%float.
Proof.
  intros H.
  rewrite FloatAxioms.eqb_spec, SFeqb_leb, <- !FloatAxioms.leb_spec, H.
  by rewrite andb_true_r.
Qed.

Lemma etl_row raw rows row :
  etl raw = Ok rows → row ∈ rows →
  ∃ i x r, raw !! i = Some x ∧ record_of i x = Ok r ∧ valid_prices r = true
           ∧ row = project r.
Proof.
  unfold etl. intros H Hrow.
  destruct (features raw) as [df|] eqn:Hf; [|done].
  simpl in H. injection H as <-.
  unfold final_df in Hrow. apply list_elem_of_fmap in Hrow as (r & -> & Hr).
  rewrite remove_bad_data_filter in Hr.
  eapply elem_of_sublist in Hr; [|apply drop_duplicates_sublist].
  apply list_elem_of_filter in Hr as [Hvalid Hr].
  apply list_elem_of_lookup in Hr as [i Hi].
  pose proof (features_lookup raw df i Hf) as Hl.
  destruct (raw !! i) as [x|] eqn:Hx; [|by rewrite Hi in Hl].
  destruct Hl as (r' & Hrec & Hr'). rewrite Hi in Hr'. injection Hr' as <-.
  by exists i, x, r.
Qed.

(** X8: every row written to the [sales] table has an actual price above
    0 and a discounted price of at least 0, a rating that is not NaN, a
    count within int64, a main category of the fixed set or "Other", and
    derived columns that agree with its own cells: the saving is the
    difference of the two prices, the popularity score the product of
    rating and count, and the discount is computed with the true actual
    price as denominator (the replacement of 0 by 1 never applies to a
    written row). *)
Theorem sales_rows_invariant (raw : list RawRow) (rows : list Sales.row)
    (row : Sales.row) :
  etl raw = Ok rows → row ∈ rows →
  (0 <? Sales.actual_price row)%float = true
  ∧ (0 <=? Sales.discounted_price row)%float = true
  ∧ is_nan (Sales.rating row) = false
  ∧ (F64.int64_min ≤ Sales.rating_count row ≤ F64.int64_max)%Z
  ∧ Sales.main_category row ∈ main_categories
  ∧ Sales.price_savings row
    = (Sales.actual_price row - Sales.discounted_price row)%float
  ∧ Sales.popularity_score row
    = (Sales.rating row * F64.of_Z (Sales.rating_count row))%float
  ∧ Sales.discount_percent row
    = F64.round2 ((Sales.actual_price row - Sales.discounted_price row)
                  / Sales.actual_price row * 100)%float.
Proof.
  intros H Hrow.
  destruct (etl_row raw rows row H Hrow) as (i & x & r & _ & Hrec & Hvalid & ->).
  unfold valid_prices in Hvalid. apply andb_true_iff in Hvalid as [Ha Hd].
  unfold record_of in Hrec.
  destruct (clean_price (raw_discounted_price x)) as [d|]; simpl in Hrec; [|done].
  destruct (clean_price (raw_actual_price x)) as [a|]; simpl in Hrec; [|done].
  destruct (F64.astype_int _) as [n|] eqn:Hn; simpl in Hrec; [|done].
  injection Hrec as <-. simpl in *.
  split; [done|]. split; [done|].
  split; [by destruct (is_nan (Series.to_numeric_cell (raw_rating x))) eqn:E|].
  split; [by apply astype_int_fillna in Hn as [? _]|].
  split; [apply main_category_cases|].
  split; [done|]. split; [done|].
  unfold spec_discount_percent. by rewrite (ltb_zero_neq a Ha).
Qed.

Lemma sales_rows_invariant_witness :
  ∃ row, etl sample_input = Ok [row]
         ∧ (0 <? Sales.actual_price row)%float = true
         ∧ Sales.main_category row ∈ main_categories.
Proof.
  set (row := default (project (Build_Row 0 "" "" None "" 0 0 0 0 0 0 0 None))
                (match etl sample_input with Ok rows => rows | Raise _ => [] end
                   !! 0%nat)).
  assert (etl sample_input = Ok [row]) as H by (vm_compute; reflexivity).
  exists row. split; [exact H|].
  destruct (sales_rows_invariant sample_input [row] row H)
    as (Ha & _ & _ & _ & Hc & _).
  - apply list_elem_of_singleton. reflexivity.
  - split; [exact Ha | exact Hc].
Defined.

(** X9: the bucket of a written row is the label of the right-closed
    bin its discounted price lies in; it is missing exactly when that
    price is 0 or above 999999. *)
Theorem sales_rows_bucket (raw : list RawRow) (rows : list Sales.row)
    (row : Sales.row) :
  etl raw = Ok rows → row ∈ rows →
  (Sales.price_bucket row = None
   ↔ (Sales.discounted_price row =? 0)%float = true
     ∨ (999999 <? Sales.discounted_price row)%float = true)
  ∧ (∀ l, Sales.price_bucket row = Some l →
          l = right_closed_label (Sales.discounted_price row)).
Proof.
  intros H Hrow.
  destruct (etl_row raw rows row H Hrow) as (i & x & r & _ & Hrec & Hvalid & ->).
  unfold valid_prices in Hvalid. apply andb_true_iff in Hvalid as [_ Hd].
  assert (price_bucket r = (c ← cut_code (discounted_price r) bins; labels !! c))
    as Hb.
  { unfold record_of in Hrec.
    destruct (clean_price (raw_discounted_price x)) as [d|]; simpl in Hrec; [|done].
    destruct (clean_price (raw_actual_price x)) as [a|]; simpl in Hrec; [|done].
    destruct (F64.astype_int _) as [n|]; simpl in Hrec; [|done].
    by injection Hrec as <-. }
  simpl. rewrite Hb. destruct (leb_not_nan _ _ Hd) as [_ Hnan].
  split.
  - rewrite cut_bins_None, Hnan, (leb_zero_eqb _ Hd).
    split; [by intros [?|?] | intros ?; by right].
  - intros l Hl.
    destruct (discounted_price r <=? 0)%float eqn:H0;
      [by rewrite cut_bins_below in Hl|].
    destruct (999999 <? discounted_price r)%float eqn:Hm;
      [by rewrite cut_bins_above in Hl|].
    rewrite cut_bins_right_closed in Hl.
    + by injection Hl.
    + rewrite ltb_negb_leb by done. by rewrite H0.
    + rewrite ltb_negb_leb in Hm by done. by apply negb_false_iff in Hm.
Qed.

Lemma sales_rows_bucket_witness :
  ∃ row, etl sample_input = Ok [row]
         ∧ ∀ l, Sales.price_bucket row = Some l →
                l = right_closed_label (Sales.discounted_price row).
Proof.
  set (row := default (project (Build_Row 0 "" "" None "" 0 0 0 0 0 0 0 None))
                (match etl sample_input with Ok rows => rows | Raise _ => [] end
                   !! 0%nat)).
  assert (etl sample_input = Ok [row]) as H by (vm_compute; reflexivity).
  exists row. split; [exact H|].
  apply (sales_rows_bucket sample_input [row] row H).
  apply list_elem_of_singleton. reflexivity.
Defined.

(** ** The quality filter applied to its own output *)

Lemma filter_all {A : Type} (P : A → Prop) `{!∀ x, Decision (P x)} (l : list A) :
  Forall P l → filter P l = l.
Proof.
  induction 1 as [|x l Hx Hl IH]; [done|].
  rewrite filter_cons, decide_True by done. by rewrite IH.
Qed.

Lemma drop_duplicates_distinct (l : list Row) :
  (∀ i j ri rj, l !! i = Some ri → l !! j = Some rj →
                key_same (subset_key ri) (subset_key rj) = true → i = j) →
  drop_duplicates l = l.
Proof.
  induction l as [|r l IH] using rev_ind; intros Hd; [done|].
  rewrite drop_duplicates_snoc, IH.
  - assert (existsb (key_same (subset_key r)) (subset_key <$> l) = false) as ->; [|done].
    apply has_key_false. intros r' [i Hi]%list_elem_of_lookup.
    apply not_true_is_false. intros Hsame.
    assert (i = length l) as ->.
    { apply (Hd i (length l) r' r); [by apply lookup_app_l_Some| |done].
      by rewrite lookup_app_r, Nat.sub_diag by lia. }
    apply lookup_lt_Some in Hi. lia.
  - intros i j ri rj Hi Hj. apply Hd; by apply lookup_app_l_Some.
Qed.



(** X10: the quality filter is idempotent: filtering its output again
    removes nothing more. *)
Theorem remove_bad_data_idempotent (df : list Row) :
  remove_bad_data (remove_bad_data df) = remove_bad_data df.
Proof.
  rewrite (remove_bad_data_filter (remove_bad_data df)), filter_all.
  - apply drop_duplicates_distinct.
    rewrite remove_bad_data_filter. apply drop_duplicates_keys.
  - rewrite remove_bad_data_filter. apply Forall_forall. intros r Hr.
    eapply elem_of_sublist in Hr; [|apply drop_duplicates_sublist].
    by apply list_elem_of_filter in Hr as [? _].
Qed.

(** ** The store beside the [sales] table *)

Lemma create_index_lookup iname tname col db i :
  indexes (create_index iname tname col db) !! i
  = if decide (i = iname) then Some (default (tname, col) (indexes db !! iname))
    else indexes db !! i.
Proof.
  unfold create_index. destruct (indexes db !! iname) as [v|] eqn:Hn; simpl.
  - destruct (decide (i = iname)) as [->|]; [done|done].
  - destruct (decide (i = iname)) as [->|].
    + by rewrite lookup_insert_eq.
    + by rewrite lookup_insert_ne.
Qed.

Lemma to_sql_indexes rows db i :
  indexes (to_sql "sales" rows db) !! i
  = match indexes db !! i with
    | Some (t, c) => if decide (t = "sales") then None else Some (t, c)
    | None => None
    end.
Proof.
  unfold to_sql, drop_table. simpl. rewrite map_lookup_filter.
  destruct (indexes db !! i) as [[t c]|]; simpl; [|done].
  destruct (decide (t = "sales")) as [->|Hne].
  - by rewrite option_guard_False by (simpl; by intros ?).
  - by rewrite option_guard_True.
Qed.

(** X12: the write leaves the rest of the store alone: every other table
    keeps its rows and every index on another table stays; an index on
    [sales] under another name than the three the script creates is gone
    after the run. *)
Theorem save_rest_of_store (rows : list Sales.row) (db : Database) :
  (∀ name, name ≠ "sales" → tables (save rows db) !! name = tables db !! name)
  ∧ (∀ i t c, indexes db !! i = Some (t, c) → t ≠ "sales" →
              indexes (save rows db) !! i = Some (t, c))
  ∧ (∀ i c, indexes db !! i = Some ("sales", c) →
            i ∉ ["idx_main_category"; "idx_rating"; "idx_price"] →
            indexes (save rows db) !! i = None).
Proof.
  unfold save. split; [|split].
  - intros name Hne. rewrite !create_index_tables. simpl.
    rewrite lookup_insert_ne by done. by rewrite lookup_delete_ne.
  - intros i t c Hi Hne.
    rewrite !create_index_lookup, !to_sql_indexes, Hi.
    rewrite (decide_False (P := t = "sales")) by done.
    repeat case_decide; subst; simpl; try done;
      rewrite ?create_index_lookup, ?to_sql_indexes, ?Hi;
      repeat case_decide; simpl; try done;
      rewrite ?to_sql_indexes, ?Hi; repeat case_decide; done.
  - intros i c Hi Hnot.
    rewrite !create_index_lookup, !to_sql_indexes, Hi.
    rewrite (decide_True (P := "sales" = "sales")) by done.
    repeat case_decide; subst; try done; exfalso; apply Hnot; set_solver.
Qed.

Lemma save_rest_of_store_witness :
  indexes (save [] {| tables := ∅;
                      indexes := {["idx_old" := ("sales", "rating")]} |}) !! "idx_old"
  = None.
Proof.
  apply (proj2 (proj2 (save_rest_of_store [] _)) "idx_old" "rating").
  - vm_compute. reflexivity.
  - intros H. repeat (apply elem_of_cons in H as [H|H]; [discriminate|]).
    by apply elem_of_nil in H.
Defined.



(** ** The dashboard: shortened names and the filter clause *)

(** X14: [shorten] keeps the first [n] code points of the text, returns
    at most [n + 3] code points, and is idempotent; a text longer than [n]
    comes out with exactly [n + 3] code points, so a text of [n + 1] or
    [n + 2] code points gets longer. *)
Theorem shorten_properties (text : list N) (n : nat) :
  take n (shorten text n) = take n text
  ∧ (length (shorten text n) ≤ n + 3)%nat
  ∧ shorten (shorten text n) n = shorten text n
  ∧ ((n < length text)%nat → length (shorten text n) = (n + 3)%nat)
  ∧ ((length text ≤ n)%nat → shorten text n = text).
Proof.
  unfold shorten. destruct (Nat.ltb_spec n (length text)) as [Hlt|Hge].
  - assert (length (take n text) = n) as Hlen by (rewrite length_take; lia).
    assert (length (take n text ++ [46; 46; 46]%N) = (n + 3)%nat) as Hlen'
      by (rewrite length_app, Hlen; reflexivity).
    split; [by rewrite take_app_le, take_take, Nat.min_id by lia|].
    split; [lia|]. split; [|split; [done|lia]].
    rewrite Hlen'. destruct (Nat.ltb_spec n (n + 3)) as [_|?]; [|lia].
    by rewrite take_app_le, take_take, Nat.min_id by lia.
  - split; [done|]. split; [lia|]. split; [|split; [lia|done]].
    by destruct (Nat.ltb_spec n (length text)); [lia|].
Qed.

Lemma shorten_properties_witness :
  length (shorten (replicate 46 65%N) 45) = 48%nat.
Proof.
  apply (proj1 (proj2 (proj2 (proj2 (shorten_properties (replicate 46 65%N) 45))))).
  vm_compute. lia.
Defined.

Lemma where_clause_text (selected_category selected_bucket : string) :
  where_clause selected_category selected_bucket
  = (if String.eqb selected_category "All" then
       if String.eqb selected_bucket "All"
       then "1=1 AND rating >= :rating"
       else "1=1 AND price_bucket = :bucket AND rating >= :rating"
     else
       if String.eqb selected_bucket "All"
       then "1=1 AND main_category = :cat AND rating >= :rating"
       else "1=1 AND main_category = :cat AND price_bucket = :bucket AND rating >= :rating").
Proof.
  unfold where_clause, conditions.
  by destruct (String.eqb selected_category "All"), (String.eqb selected_bucket "All").
Qed.

(** X15: the text of the filter clause is one of four fixed texts,
    whatever is selected: the selected category and bucket never become
    part of the SQL text (they only travel as bound parameters), and two
    selections that switch the same filters on give the same text. *)
Theorem where_clause_fixed (selected_category selected_bucket : string) :
  where_clause selected_category selected_bucket
  ∈ ["1=1 AND rating >= :rating";
     "1=1 AND price_bucket = :bucket AND rating >= :rating";
     "1=1 AND main_category = :cat AND rating >= :rating";
     "1=1 AND main_category = :cat AND price_bucket = :bucket AND rating >= :rating"]
  ∧ ∀ category' bucket',
      String.eqb category' "All" = String.eqb selected_category "All" →
      String.eqb bucket' "All" = String.eqb selected_bucket "All" →
      where_clause category' bucket' = where_clause selected_category selected_bucket.
Proof.
  split.
  - rewrite where_clause_text.
    destruct (String.eqb selected_category "All"), (String.eqb selected_bucket "All");
      set_solver.
  - intros c' b' Hc Hb. by rewrite !where_clause_text, Hc, Hb.
Qed.

Lemma where_clause_fixed_witness :
  where_clause "Electronics" "low" = where_clause "Computers" "luxury".
Proof.
  apply (proj2 (where_clause_fixed "Computers" "luxury") "Electronics" "low");
    reflexivity.
Defined.

(** X16: the parameters bound for a query are exactly the named
    parameters its clause refers to, so no parameter is missing and none
    is left over; the rating threshold and each selection that is not
    "All" are bound under their names. *)
Theorem params_match_placeholders (selected_category selected_bucket : string)
    (min_rating : float) :
  list_to_set (placeholders (where_clause selected_category selected_bucket))
  = dom (params selected_category selected_bucket min_rating)
  ∧ params selected_category selected_bucket min_rating !! "rating"
    = Some (PReal min_rating)
  ∧ (selected_category ≠ "All" →
     params selected_category selected_bucket min_rating !! "cat"
     = Some (PText selected_category))
  ∧ (selected_bucket ≠ "All" →
     params selected_category selected_bucket min_rating !! "bucket"
     = Some (PText selected_bucket)).
Proof.
  rewrite where_clause_text. unfold params.
  destruct (String.eqb_spec selected_category "All") as [Hc|Hc];
    destruct (String.eqb_spec selected_bucket "All") as [Hb|Hb]; simpl negb; cbv iota.
  all: split;
    [ change (placeholders _) with ["rating"] ||
      change (placeholders _) with ["bucket"; "rating"] ||
      change (placeholders _) with ["cat"; "rating"] ||
      change (placeholders _) with ["cat"; "bucket"; "rating"];
      rewrite ?dom_insert_L, dom_singleton_L; set_solver
    | ].
  all: split; [by simplify_map_eq|]. 
  all: split; intros ?; try done; by simplify_map_eq.
Qed.

Lemma params_match_placeholders_witness :
  params "Electronics" "All" 4%float !! "cat" = Some (PText "Electronics").
Proof.
  apply (proj1 (proj2 (proj2 (params_match_placeholders "Electronics" "All" 4%float)))).
  discriminate.
Defined.
